(** * Release rotation of the fabfile: [roll_site_forward] and [prune_directory]

    The two functions of [fabfile/lib.py] that rotate releases are Python
    wrappers around shell command lines run on the remote host by Fabric.
    The development has three layers.

    - [Text] and [Tree]: strings as the tools cut them (lines, words, white
      space) and the remote file system as a tree of directories.
    - [Coreutils] and [Shell]: what the command lines of the two functions do
      to that tree ([ls], [grep], [tail], [xargs rm], [unlink], [ln -s]), each
      after the tool's manual.
    - [Fabric] and [Fabfile]: Fabric's [run], [cd] and [settings(warn_only)],
      and the two Python functions written over an arbitrary remote shell, in
      the order of the source.

    Scope of the tool models.  Paths are absolute and already resolved, as the
    one returned by [os.path.realpath] in [deploy()].  Entry names are the
    strings the kernel admits as file names (no slash, no NUL) and are taken
    to be one line each (no line feed).  White space inside a name is
    modelled: the shell and xargs cut such a name into words.  The other
    characters that are special to the shell or to xargs (quotes, backslash,
    dollar, globbing, ...) and words that begin with a dash (options) are not
    interpreted.  [ls] sorts in the C locale (byte order).  The deploy user
    may modify the whole tree: a command fails for what the tree holds, never
    for permissions.

    Around the two functions: [Posixpath] and [Init] give the paths that
    [fabfile/__init__.py] derives and hands to them; [Steps] and [Lib] give
    the other steps of [lib.py] with the command lines left to the remote
    shell, each call recorded as the request Fabric sends ([cd], [prefix]
    and [sudo] included).  *)

From Stdlib Require Import ZArith Ascii.
From stdpp Require Import gmap strings list sorting.

(** ** Text as the tools cut it *)

Module Text.

(** Space and tab: what separates the words of a shell command line. *)
Definition is_blank (c : ascii) : bool :=
  match c with
  | "009"%char | " "%char => true
  | _ => false
  end.

(** The fields of [s] between separators, empty ones included. *)
Fixpoint fields (sep : ascii → bool) (s : string) : list string :=
  match s with
  | "" => [""]
  | String c s' =>
      if sep c then "" :: fields sep s'
      else match fields sep s' with
           | w :: ws => String c w :: ws
           | [] => [String c ""]
           end
  end.

Definition nonempty (s : string) : bool :=
  match s with "" => false | _ => true end.

(** The words of [s]: its non-empty fields. *)
Definition words (sep : ascii → bool) (s : string) : list string :=
  filter (λ w, nonempty w = true) (fields sep s).

(** Python's [str.strip()]: white space removed at both ends.  Python's
    white space is the six characters of [Ascii.is_space]. *)
Fixpoint lstrip (s : string) : string :=
  match s with
  | "" => ""
  | String c s' => if Ascii.is_space c then lstrip s' else s
  end.

Fixpoint rstrip (s : string) : string :=
  match s with
  | "" => ""
  | String c s' =>
      match rstrip s' with
      | "" => if Ascii.is_space c then "" else String c ""
      | r => String c r
      end
  end.

Definition strip (s : string) : string := lstrip (rstrip s).

(** [contains p s]: the text [p] occurs in [s]. *)
Fixpoint contains (p s : string) : bool :=
  String.prefix p s ||
  match s with
  | "" => false
  | String _ s' => contains p s'
  end.

(** No white space at all in [s]. *)
Fixpoint spaceless (s : string) : bool :=
  match s with
  | "" => true
  | String c s' => negb (Ascii.is_space c) && spaceless s'
  end.

Definition is_digit (c : ascii) : bool :=
  match Ascii.is_nat c with Some _ => true | None => false end.

Definition is_underscore (c : ascii) : bool :=
  match c with "_"%char => true | _ => false end.

(** [s] has one character per element of [format], each of the class the
    element asks for. *)
Fixpoint shaped (format : list (ascii → bool)) (s : string) : bool :=
  match format, s with
  | [], "" => true
  | f :: format', String c s' => f c && shaped format' s'
  | _, _ => false
  end.

End Text.

(** ** The remote file system *)

Module Tree.

#[warnings="-register-all"]
Inductive node : Type :=
| File
| Symlink (target : string)
| Dir (entries : gmap string node).

(** A path, from the root, one component per element. *)
Definition path : Type := list string.

Fixpoint get (p : path) (n : node) : option node :=
  match p with
  | [] => Some n
  | x :: p' =>
      match n with
      | Dir es => es !! x ≫= get p'
      | _ => None
      end
  end.

(** The entries of the directory at [p], when [p] is a directory. *)
Definition entries_at (p : path) (n : node) : option (gmap string node) :=
  match get p n with
  | Some (Dir es) => Some es
  | _ => None
  end.

(** Rewrite the entries of the directory at [p]. *)
Fixpoint alter_dir (f : gmap string node → gmap string node)
    (p : path) (n : node) : node :=
  match n with
  | Dir es =>
      match p with
      | [] => Dir (f es)
      | x :: p' => Dir (alter (alter_dir f p') x es)
      end
  | _ => n
  end.

Definition is_dir (o : option node) : bool :=
  match o with
  | Some (Dir _) => true
  | _ => false
  end.

(** The remote host: its tree and the directory a session starts in. *)
Record host : Type := Host { root : node; home : path }.

(** The host in which the directory at [p] has the entries [es] and all the
    rest is as in [h]. *)
Definition put_entries (p : path) (es : gmap string node) (h : host) : host :=
  Host (alter_dir (λ _, es) p (root h)) (home h).

End Tree.

(** ** The tools of the two command lines *)

Module Coreutils.
Import Text Tree.

(** [ls] without [-a] does not list the names that begin with a dot. *)
Definition hidden (name : string) : bool := String.prefix "." name.

(** [ls -1 DIR], for the entries [es] of DIR: the listed names, one per
    line, sorted. *)
Definition ls (es : gmap string node) : list string :=
  merge_sort String.le (filter (λ n, hidden n = false) (elements (dom es))).

(** [ls -1r DIR]: the same lines in reverse order. *)
Definition ls_r (es : gmap string node) : list string := reverse (ls es).

(** [grep PATTERN]: the lines in which PATTERN occurs.  PATTERN is read as
    fixed text, which is what grep makes of a non-empty pattern without
    regular expression operators; both call sites pass the text [2]. *)
Definition grep (pattern : string) (lines : list string) : list string :=
  filter (λ l, contains pattern l = true) lines.

(** What [roll_site_forward] chooses from: the listed names with a [2]. *)
Definition candidate (es : gmap string node) (n : string) : Prop :=
  n ∈ dom es ∧ hidden n = false ∧ contains "2" n = true.

#[global] Instance candidate_dec es n : Decision (candidate es n).
Proof. unfold candidate. apply _. Defined.


(** [tail -n 1]: the last line, if any. *)
Definition tail_1 (lines : list string) : list string :=
  match last lines with
  | Some l => [l]
  | None => []
  end.

(** [tail -n +K]: the lines from line K on, counting from 1.  [+0] is read
    as [+1]; a negative K makes the operand [+-3], which tail rejects, and
    nothing is printed. *)
Definition tail_from (k : Z) (lines : list string) : list string :=
  if (k <? 0)%Z then [] else drop (Z.to_nat (k - 1)) lines.

(** xargs cuts its input into the arguments of the command at white space,
    within lines as well as between them. *)
Definition xargs (lines : list string) : list string :=
  lines ≫= words Ascii.is_space.

(** The names [.] and [..] are present in every directory. *)
Definition dot_name (x : string) : bool :=
  bool_decide (x = ".") || bool_decide (x = "..").

(** [rm -rf --preserve-root OPERAND...] in the directory with entries [es]:
    every operand is removed with all it contains, an absent one is no error
    ([-f]); rm refuses [.] and [..] and then exits with an error after
    removing the rest.  The boolean tells whether rm exited with 0. *)
Definition rm_rf (operands : list string) (es : gmap string node)
    : bool * gmap string node :=
  (forallb (λ x, negb (dot_name x)) operands,
   foldr delete es (filter (λ x, dot_name x = false) operands)).

(** [unlink NAME]: fails when NAME is absent and when it is a directory. *)
Definition unlink (name : string) (es : gmap string node)
    : bool * gmap string node :=
  match es !! name with
  | None => (false, es)
  | Some (Dir _) => (false, es)
  | Some _ => (true, delete name es)
  end.

Definition occupied (es : gmap string node) (x : string) : bool :=
  dot_name x || bool_decide (is_Some (es !! x)).

(** One symbolic link named [x] that holds [target]; an existing [x] is an
    error ([File exists]) since [-f] is not given. *)
Definition symlink (target x : string) (es : gmap string node)
    : bool * gmap string node :=
  if occupied es x then (false, es) else (true, <[x := Symlink target]> es).

(** [ln -s TARGET... DIRECTORY] inside DIRECTORY: one link per target, named
    after it; a failure does not stop the following ones. *)
Fixpoint symlinks_into (targets : list string) (es : gmap string node)
    : bool * gmap string node :=
  match targets with
  | [] => (true, es)
  | t :: ts =>
      let '(ok, es1) := symlink t t es in
      let '(oks, es2) := symlinks_into ts es1 in
      (ok && oks, es2)
  end.

(** [ln -s TARGET... LAST] in the directory with entries [es].
    - No target: LAST is the only operand, so it is the target, and the link
      is made in the current directory under the same name.
    - LAST is a directory: the links are made inside it.
    - Otherwise one target gives the link LAST, and several are an error
      ([target is not a directory]).
    A LAST that is a symbolic link is taken as not a directory; [ln] would
    follow it.  [roll_site_forward] does not get there: [unlink] has removed
    such a link before. *)
Definition ln_s (targets : list string) (last : string)
    (es : gmap string node) : bool * gmap string node :=
  match targets with
  | [] => symlink last last es
  | t :: ts =>
      match es !! last with
      | Some (Dir sub) =>
          let '(ok, sub') := symlinks_into targets sub in
          (ok, <[last := Dir sub']> es)
      | _ =>
          match ts with
          | [] => symlink t last es
          | _ => (false, es)
          end
      end
  end.

End Coreutils.

(** ** The command lines, run by the remote shell *)

Module Shell.
Import Text Tree Coreutils.

(** The four command lines of the two functions, with the values that the
    Python code formats into them. *)
Inductive command : Type :=
| ls_grep_tail (deployment_dir : path)
    (* 'ls -1 %s | grep 2 | tail -n 1' *)
| unlink_live
    (* 'unlink live' *)
| ln_s_live (newest_deployment : string)
    (* 'ln -s %s live' *)
| ls_grep_tail_xargs_rm (directory : path) (pattern : string)
    (max_entries : Z)
    (* 'ls -1r %s | grep %s | tail -n +%d | xargs rm -rf --preserve-root' *).

(** What Fabric gets back: the captured output and the exit status. *)
Record result : Type := Result { stdout : string; return_code : Z }.

(** The lines [ls] prints for the directory at [d].  A [d] that is not a
    directory is outside the model ([ls] prints an error, or the operand
    itself when it is a file); no line is taken then. *)
Definition listing (ls_d : gmap string node → list string) (d : path)
    (h : host) : list string :=
  match entries_at d (root h) with
  | Some es => ls_d es
  | None => []
  end.

(** Fabric runs a command as [cd p && command] inside [with cd(p)]. *)
Definition cd_fails (cwd : option path) (h : host) : bool :=
  match cwd with
  | Some p => negb (is_dir (get p (root h)))
  | None => false
  end.

(** Run [act] on the entries of the working directory [wd]. *)
Definition in_directory (wd : path) (fail_code : Z)
    (act : gmap string node → bool * gmap string node) (h : host)
    : result * host :=
  match entries_at wd (root h) with
  | Some es =>
      let '(ok, es') := act es in
      (Result "" (if ok then 0 else fail_code), put_entries wd es' h)
  | None => (Result "" 1, h)
  end.

(** [exec cwd c h]: the shell runs [c] on host [h].  With [cwd = Some p]
    Fabric has put [cd p &&] before the command line; with [None] the
    command runs in the directory the session starts in.  The exit status of
    a pipeline is that of its last command: 0 for [tail], and for [xargs]
    0, or 123 when [rm] exited with an error. *)
Definition exec (cwd : option path) (c : command) (h : host)
    : result * host :=
  let wd := default (home h) cwd in
  if cd_fails cwd h then (Result "" 1, h)
  else
    match c with
    | ls_grep_tail deployment_dir =>
        let out := tail_1 (grep "2" (listing ls deployment_dir h)) in
        (Result (default "" (head out)) 0, h)
    | unlink_live =>
        in_directory wd 1 (unlink "live") h
    | ln_s_live newest_deployment =>
        in_directory wd 1 (ln_s (words is_blank newest_deployment) "live") h
    | ls_grep_tail_xargs_rm directory pattern max_entries =>
        let lines :=
          tail_from max_entries (grep pattern (listing ls_r directory h)) in
        in_directory wd 123 (rm_rf (xargs lines)) h
    end.

End Shell.

(** ** Fabric: [run], [cd], [settings(warn_only=True)] *)

Module Fabric.
Import Text Tree Shell.

(** The part of Fabric's [env] the two functions depend on. *)
Record env : Type := Env { cwd : option path; warn_only : bool }.

(** The [env] of a task body: no [cd] entered, failures abort. *)
Definition task_env : env := Env None false.

(** A call either returns or aborts the run (Fabric's [abort] raises
    [SystemExit]). *)
Inductive outcome (A : Type) : Type :=
| Done (a : A)
| Abort.
Arguments Done {A} a.
Arguments Abort {A}.

Definition failed (r : result) : bool := negb (return_code r =? 0)%Z.
Definition succeeded (r : result) : bool := negb (failed r).

Section Session.
(** The remote shell: any function from the working directory, the command
    and the state of the host to a result and a new state. *)
Context {Host : Type}.
Variable remote : option path → command → Host → result * Host.

(** Python code that runs commands: it reads [env], changes the host, and
    returns or aborts.  What was done before an abort stays done. *)
Definition fab (A : Type) : Type := env → Host → outcome A * Host.

Definition ret {A} (a : A) : fab A := λ _ h, (Done a, h).

Definition bind {A B} (m : fab A) (k : A → fab B) : fab B :=
  λ e h,
    match m e h with
    | (Done a, h') => k a e h'
    | (Abort, h') => (Abort, h')
    end.

(** [with cd(p): body], for an absolute [p]. *)
Definition cd {A} (p : path) (body : fab A) : fab A :=
  λ e, body (Env (Some p) (warn_only e)).

(** [with settings(warn_only=b): body]. *)
Definition settings {A} (b : bool) (body : fab A) : fab A :=
  λ e, body (Env (cwd e) b).

(** [env.run(command)]: the command runs in [env.cwd]; its output comes
    back stripped; a non-zero exit status aborts unless [warn_only]. *)
Definition run (c : command) : fab result :=
  λ e h,
    let '(r, h') := remote (cwd e) c h in
    if failed r && negb (warn_only e) then (Abort, h')
    else (Done (Result (strip (stdout r)) (return_code r)), h').

(** [puts(...)] of [fabutils] prints a status line. *)
Definition puts (line : string) : fab unit := ret tt.

End Session.

End Fabric.

(** ** fabfile/lib.py *)

Module Fabfile.
Import Text Tree Shell Fabric.

Declare Scope fab_scope.
Delimit Scope fab_scope with fab.
Notation "x <- m ;; k" := (bind m (λ x, k))
  (at level 100, m at next level, right associativity) : fab_scope.
Notation "m ;; k" := (bind m (λ _, k))
  (at level 100, right associativity) : fab_scope.

(** __init__.py, line 98: [deploy()] names a release directory
    [datetime.now().strftime('%Y%m%d_%H%M%S')], that is eight digits, an
    underscore and six digits. *)
Definition timestamp_format : list (ascii → bool) :=
  replicate 8 is_digit ++ [is_underscore] ++ replicate 6 is_digit.

Definition is_timestamp (name : string) : bool :=
  shaped timestamp_format name.

Section Lib.
Context {Host : Type}.
Variable remote : option path → command → Host → result * Host.

(** lib.py, lines 258 to 270. *)
Definition roll_site_forward (deployment_dir : path) : fab (Host := Host) unit :=
  (newest_deployment <- run remote (ls_grep_tail deployment_dir) ;;
   cd deployment_dir
     (settings true (run remote unlink_live) ;;
      run remote (ln_s_live (stdout newest_deployment)) ;;
      puts "Symlink rolled forward"))%fab.

(** lib.py, lines 287 to 302.  The source ends at the test of
    [.succeeded], which is what the function returns here. *)
Definition prune_directory (directory : path) (pattern : string)
    (max_entries : Z) : fab (Host := Host) bool :=
  settings true
    (puts "Pruning" ;;
     r <- run remote
            (ls_grep_tail_xargs_rm directory pattern max_entries) ;;
     ret (succeeded r))%fab.

End Lib.

End Fabfile.


Import Text Tree Coreutils Shell Fabric Fabfile.

(** ** Hosts of the scenarios *)

Module Scenario.

(** The directory of the releases of a project, as [deploy()] lays it out
    below the home of the deploy user. *)
Definition site : path := ["home"; "deploy"; "projects"; "site"].

(** A host whose site directory has the entries [es]. *)
Definition host_with (es : gmap string node) : host :=
  Host
    (Dir {[ "home" := Dir {[ "deploy" := Dir {[ "projects" :=
       Dir {[ "site" := Dir es ]} ]} ]} ]})
    ["home"; "deploy"].

Definition release : node := Dir {[ "manage.py" := File ]}.

Definition three_releases : gmap string node :=
  {[ "20230101_000000" := release;
     "20230102_000000" := release;
     "20230103_000000" := release ]}.

(** The three releases and the link to the newest. *)
Definition three_releases_live : gmap string node :=
  <[ "live" := Symlink "20230103_000000" ]> three_releases.

(** [live] is a directory, not a link. *)
Definition live_is_a_directory : gmap string node :=
  <[ "live" := Dir ∅ ]> three_releases.

(** A release of this millennium and one of the next. *)
Definition release_of_year_3000 : gmap string node :=
  {[ "20230101_000000" := release; "30000101_000000" := release ]}.

(** A release and a directory that is not named after a time. *)
Definition release_and_backup : gmap string node :=
  {[ "20230101_000000" := release; "backup_2022" := release ]}.


(** An entry whose name has blanks in it. *)
Definition name_with_blanks : gmap string node :=
  {[ "2022 live" := release;
     "20230101_000000" := release;
     "20230102_000000" := release;
     "live" := Symlink "20230102_000000" ]}.

(** An entry whose name ends, after a blank, like a directory above. *)
Definition name_of_an_ancestor : gmap string node :=
  {[ "2022 projects" := release;
     "20230101_000000" := release;
     "20230102_000000" := release;
     "live" := Symlink "20230102_000000" ]}.

(** The home of the deploy user with nothing in it. *)
Definition empty_home : host :=
  Host (Dir {[ "home" := Dir {[ "deploy" := Dir ∅ ]} ]}) ["home"; "deploy"].

End Scenario.

Import Scenario.

(** ** More hosts *)

Module Cases.

(** The greatest name with a [2] has a blank in it. *)
Definition greatest_name_with_blank : gmap string node :=
  {[ "20230101_000000" := release;
     "2099 draft" := release;
     "live" := Symlink "20230101_000000" ]}.

End Cases.

Import Cases.

(** ** Python's [os.path] on a POSIX host *)

Module Posixpath.

Definition is_slash (c : ascii) : bool :=
  match c with "/"%char => true | _ => false end.

(** [s.startswith('/')] and [s.endswith('/')]. *)
Definition startswith_slash (s : string) : bool :=
  match s with
  | String c _ => is_slash c
  | "" => false
  end.

Fixpoint endswith_slash (s : string) : bool :=
  match s with
  | "" => false
  | String c "" => is_slash c
  | String _ s' => endswith_slash s'
  end.

(** One round of the loop of [posixpath.join]: an absolute component
    replaces what came before, others are appended after one slash. *)
Definition join2 (path b : string) : string :=
  if startswith_slash b then b
  else if negb (nonempty path) || endswith_slash path then path +:+ b
  else path +:+ "/" +:+ b.

(** [os.path.join(a, *p)]. *)
Definition join (a : string) (p : list string) : string := foldl join2 a p.

(** [p.rfind('/')]: the index of the last slash of [p], or -1. *)
Fixpoint rfind_slash (p : string) : Z :=
  match p with
  | "" => -1
  | String c p' =>
      let i := rfind_slash p' in
      if (0 <=? i)%Z then (i + 1)%Z
      else if is_slash c then 0%Z else (-1)%Z
  end.

(** The slices [p[:i]] and [p[i:]]. *)
Fixpoint slice_to (i : nat) (p : string) : string :=
  match i, p with
  | S i', String c p' => String c (slice_to i' p')
  | _, _ => ""
  end.

Fixpoint slice_from (i : nat) (p : string) : string :=
  match i, p with
  | S i', String _ p' => slice_from i' p'
  | _, _ => p
  end.

(** [head == '/' * len(head)] and [head.rstrip('/')]. *)
Fixpoint all_slashes (s : string) : bool :=
  match s with
  | "" => true
  | String c s' => is_slash c && all_slashes s'
  end.

Fixpoint rstrip_slashes (s : string) : string :=
  match s with
  | "" => ""
  | String c s' =>
      match rstrip_slashes s' with
      | "" => if is_slash c then "" else String c ""
      | r => String c r
      end
  end.

(** [os.path.basename(p)]: [i = p.rfind('/') + 1; return p[i:]]. *)
Definition basename (p : string) : string :=
  slice_from (Z.to_nat (rfind_slash p + 1)) p.

(** [os.path.dirname(p)]: the head [p[:i]], without its trailing slashes
    unless it consists of slashes only. *)
Definition dirname (p : string) : string :=
  let head := slice_to (Z.to_nat (rfind_slash p + 1)) p in
  if nonempty head && negb (all_slashes head) then rstrip_slashes head
  else head.

(** No slash in [s]. *)
Fixpoint slashless (s : string) : bool :=
  match s with
  | "" => true
  | String c s' => negb (is_slash c) && slashless s'
  end.

End Posixpath.

(** ** fabfile/__init__.py: the deployment context *)

Module Init.
Import Posixpath.

(** The keys of Fabric's [env] that __init__.py sets and reads. *)
Record dictionary : Type := Dictionary {
  real_fabfile : string;
  user : string;
  repo_path : string;
  project_name : string;
  venv_dir : string;
  production_projects_directory : string;
  database_backup_dir : string;
  project_root : string;
  project_dir : string;
  virtualenv_dir : string;
  fab_dir : string;
  requirements_path : string
}.

(** __init__.py, lines 27 to 40: what the module sets when it is loaded, for
    the path [fabfile] of the fabfile and the user [login] Fabric starts
    with.  The keys set later by the tasks are empty here. *)
Definition module_env (fabfile login : string) : dictionary :=
  {| real_fabfile := fabfile;
     user := login;
     repo_path := "";
     project_name := basename (dirname fabfile);
     venv_dir := "env";
     production_projects_directory := "projects";
     database_backup_dir := "/tmp/db_backups";
     project_root := "";
     project_dir := "";
     virtualenv_dir := "";
     fab_dir := "";
     requirements_path := "" |}.

Definition set_user (v : string) (e : dictionary) : dictionary :=
  Dictionary (real_fabfile e) v (repo_path e) (project_name e) (venv_dir e)
    (production_projects_directory e) (database_backup_dir e)
    (project_root e) (project_dir e) (virtualenv_dir e) (fab_dir e)
    (requirements_path e).

Definition set_project_root (v : string) (e : dictionary) : dictionary :=
  Dictionary (real_fabfile e) (user e) (repo_path e) (project_name e)
    (venv_dir e) (production_projects_directory e) (database_backup_dir e)
    v (project_dir e) (virtualenv_dir e) (fab_dir e) (requirements_path e).

(** __init__.py, lines 176 to 191. *)
Definition __build_env_dictionary (e : dictionary) : dictionary :=
  Dictionary (real_fabfile e) (user e) (repo_path e) (project_name e)
    (venv_dir e) (production_projects_directory e) (database_backup_dir e)
    (project_root e)
    (join (project_root e) [project_name e])
    (join (project_root e) [venv_dir e])
    (join (project_root e) [basename (real_fabfile e)])
    (join (project_root e) ["requirements.txt"]).

Section Tasks.
(** [os.path.realpath] reads the file system of the machine that runs the
    fabfile; [timestamp] stands for
    [datetime.now().strftime('%Y%m%d_%H%M%S')]. *)
Variable realpath : string → string.

(** __init__.py, lines 98 to 106: the context in which [deploy()] runs its
    steps. *)
Definition deploy_env (timestamp : string) (e : dictionary) : dictionary :=
  let e1 := set_user "deploy" e in
  let e2 :=
    set_project_root
      (realpath (join "/home" [user e1; production_projects_directory e1;
                               project_name e1; timestamp])) e1 in
  __build_env_dictionary e2.

(** __init__.py, lines 129 and 131: the directory [deploy()] passes to
    [roll_site_forward] and to [prune_directory]. *)
Definition deployment_dir (e : dictionary) : string :=
  dirname (project_root e).

End Tasks.

End Init.


(** ** Fabric for the other steps of lib.py *)

Module Steps.
Import Text Shell Posixpath.

(** What one call of [run] or [sudo] sends to the host: the command line of
    the Python code, with the [env.cwd] and the [env.command_prefixes] that
    Fabric puts before it.  What these commands do on the host (git, pip,
    virtualenv, manage.py, the services) is left to the remote shell. *)
Record request : Type := Request {
  as_root : bool;
  working_directory : string;
  prefixes : list string;
  line : string
}.

Record env : Type :=
  Env { cwd : string; warn_only : bool; command_prefixes : list string }.

(** The [env] of a task body: no [cd], no [prefix], failures abort. *)
Definition task_env : env := Env "" false [].

Section Session.
Context {Host : Type}.
Variable remote : request → Host → result * Host.

Definition fab (A : Type) : Type := env → Host → Fabric.outcome A * Host.

Definition ret {A} (a : A) : fab A := λ _ h, (Fabric.Done a, h).

Definition bind {A B} (m : fab A) (k : A → fab B) : fab B :=
  λ e h,
    match m e h with
    | (Fabric.Done a, h') => k a e h'
    | (Fabric.Abort, h') => (Fabric.Abort, h')
    end.

(** [with cd(p): body]: a relative [p] is taken below the current [env.cwd]
    (for a [p] without blank and tilde, which Fabric treats apart). *)
Definition cd {A} (p : string) (body : fab A) : fab A :=
  λ e,
    body (Env (if nonempty (cwd e) && negb (startswith_slash p)
               then cwd e +:+ "/" +:+ p else p)
              (warn_only e) (command_prefixes e)).

(** [with prefix(command): body]. *)
Definition prefix {A} (command : string) (body : fab A) : fab A :=
  λ e, body (Env (cwd e) (warn_only e) (command_prefixes e ++ [command])).

(** [with settings(warn_only=b): body]. *)
Definition settings {A} (b : bool) (body : fab A) : fab A :=
  λ e, body (Env (cwd e) b (command_prefixes e)).

Definition call (root : bool) (command : string) : fab result :=
  λ e h,
    let '(r, h') :=
      remote (Request root (cwd e) (command_prefixes e) command) h in
    if Fabric.failed r && negb (warn_only e) then (Fabric.Abort, h')
    else (Fabric.Done (Result (strip (stdout r)) (return_code r)), h').

(** What the host is sent by [env.run(line)] under [e]. *)
Definition sent (e : env) (line : string) : request :=
  Request false (cwd e) (command_prefixes e) line.

(** [env.run(command)], which the tasks that deploy leave at Fabric's [run],
    and [sudo(command)]. *)
Definition run (command : string) : fab result := call false command.
Definition sudo (command : string) : fab result := call true command.

(** [abort(message)]. *)
Definition abort {A} (message : string) : fab A := λ _ h, (Fabric.Abort, h).

(** [puts(...)] of [fabutils] prints a status line. *)
Definition puts (status : string) : fab unit := ret tt.

(** [files.exists(path)]: Fabric runs a test of [path] under [warn_only] and
    tells whether it exited with 0.  [test_e] gives the command line of
    that test. *)
Variable test_e : string → string.

Definition exists_ (path : string) : fab bool :=
  settings true
    (bind (run (test_e path)) (λ r, ret (negb (Fabric.failed r)))).

End Session.

End Steps.

(** ** lib.py: the steps that prepare a release *)

Module Lib.
Import Text Shell Posixpath Steps.

Declare Scope steps_scope.
Delimit Scope steps_scope with steps.
Notation "x <- m ;; k" := (bind m (λ x, k))
  (at level 100, m at next level, right associativity) : steps_scope.
Notation "m ;; k" := (bind m (λ _, k))
  (at level 100, right associativity) : steps_scope.

Section Lib.
Context {Host : Type}.
Variable remote : request → Host → result * Host.
Variable test_e : string → string.

(** The functions of [fabutils], which is not among the sources: any step
    for [check_on_path] and [create_directories], and for [activate_venv()]
    the command it returns. *)
Variable check_on_path : string → fab (Host := Host) unit.
Variable create_directories :
  string → string → option string → fab (Host := Host) unit.
Variable activate_venv : string.

(** lib.py, lines 17 to 28.  The value is [1] or Python's [None]. *)
Definition create_virtualenv (venv_path user permissions : string)
    : fab (Host := Host) (option Z) :=
  (check_on_path "virtualenv" ;;
   present <- exists_ remote test_e (join venv_path ["bin/activate"]) ;;
   if negb present then
     create_directories venv_path user (Some permissions) ;;
     puts "Creating virtualenv" ;;
     run remote ("virtualenv --no-site-packages " +:+ venv_path) ;;
     puts "virtualenv created" ;;
     ret (Some 1%Z)
   else
     puts "virtualenv already exists" ;;
     ret None)%steps.

(** lib.py, lines 79 to 96. *)
Definition django_load_fixture (project_dir path : string)
    : fab (Host := Host) unit :=
  (puts "Loading fixture" ;;
   let full_path := join project_dir [path] in
   present <- exists_ remote test_e full_path ;;
   (if negb present then puts "Fixture file not found" else ret tt) ;;
   prefix activate_venv
     (run remote (join project_dir ["manage.py"] +:+ " loaddata " +:+ full_path)) ;;
   puts "Fixture loaded")%steps.

(** lib.py, lines 152 to 166. *)
Definition git_pull (destination : string) : fab (Host := Host) unit :=
  (check_on_path "git" ;;
   puts "Updating git repository" ;;
   tested <- run remote ("test -d " +:+ destination) ;;
   if Fabric.succeeded tested then
     cd destination
       (run remote "git pull" ;;
        puts "Repository updated")
   else
     puts "Unable to pull - destination directory doesn't exist" ;;
     abort "Aborting")%steps.

(** lib.py, lines 179 to 190. *)
Definition compile_less_css (project_dir : string) : fab (Host := Host) unit :=
  (puts "Compiling LESS to css" ;;
   present <- exists_ remote test_e (join project_dir ["plessc.py"]) ;;
   if present then
     cd project_dir
       (prefix activate_venv
          (run remote "./plessc.py" ;;
           puts "Stylesheets compiled"))
   else
     puts "plessc.py not found - skipping")%steps.

(** lib.py, lines 133 to 150. *)
Definition git_clone (repo_path destination user : string)
    : fab (Host := Host) unit :=
  (check_on_path "git" ;;
   puts "Cloning git repository" ;;
   settings true
     (tested <- run remote ("test -d " +:+ destination) ;;
      if Fabric.failed tested then
        puts "Creating destination directory" ;;
        create_directories destination user None ;;
        puts "Destination directory created"
      else ret tt) ;;
   run remote ("git clone " +:+ repo_path +:+ " " +:+ destination) ;;
   puts "Repository cloned")%steps.

(** lib.py, lines 272 to 285. *)
Definition restart_services : fab (Host := Host) unit :=
  (check_on_path "supervisorctl" ;;
   sudo remote "supervisorctl restart all" ;;
   sudo remote "/etc/init.d/nginx restart" ;;
   sudo remote "/etc/init.d/memcached restart" ;;
   ret tt)%steps.

End Lib.

End Lib.

(** A host that answers from a table and keeps the requests it was sent, in
    order: what a test of the steps inspects. *)

Module Recorded.
Import Text Shell Steps.

Definition recording (answer : request → result)
    : request → list request → result * list request :=
  λ q log, (answer q, log ++ [q]).

Definition test_e (path : string) : string := "test -e " +:+ path.

(** Every [test] fails, every other command succeeds. *)
Definition nothing_there (q : request) : result :=
  Result "" (if String.prefix "test " (line q) then 1 else 0)%Z.

(** Every command fails. *)
Definition nothing_works (q : request) : result := Result "" 1%Z.

(** Every command succeeds but those whose line is [broken]. *)
Definition all_but (broken : string) (q : request) : result :=
  Result "" (if String.eqb (line q) broken then 1 else 0)%Z.

Definition on_path (program : string) : fab (Host := list request) unit :=
  ret tt.

Definition made (path user : string) (permissions : option string)
    : fab (Host := list request) unit :=
  ret tt.

Definition activate : string := "source env/bin/activate".

End Recorded.

(** ** Lemmas on text *)

Section TextLemmas.

Lemma is_blank_is_space c : is_blank c = true → Ascii.is_space c = true.
Proof.
  destruct c as [[] [] [] [] [] [] [] []]; simpl; congruence.
Qed.

Lemma fields_spaceless sep s :
  (∀ c, sep c = true → Ascii.is_space c = true) →
  spaceless s = true → fields sep s = [s].
Proof.
  intros Hsep. induction s as [|c s IH]; simpl; [done|].
  intros [Hc Hs]%andb_prop. rewrite IH by done.
  destruct (sep c) eqn:E; [|done].
  apply Hsep in E. rewrite E in Hc. done.
Qed.

Lemma words_spaceless sep s :
  (∀ c, sep c = true → Ascii.is_space c = true) →
  spaceless s = true → nonempty s = true → words sep s = [s].
Proof.
  intros Hsep Hs Hne. unfold words. rewrite fields_spaceless by done.
  rewrite filter_cons, filter_nil. by destruct (decide _).
Qed.

Lemma words_empty sep : words sep "" = [].
Proof. done. Qed.

Lemma rstrip_spaceless s : spaceless s = true → rstrip s = s.
Proof.
  induction s as [|c s IH]; simpl; [done|].
  intros [Hc Hs]%andb_prop. rewrite IH by done.
  destruct s; [|done].
  apply negb_true_iff in Hc. by rewrite Hc.
Qed.

Lemma lstrip_spaceless s : spaceless s = true → lstrip s = s.
Proof.
  destruct s as [|c s]; simpl; [done|].
  intros [Hc Hs]%andb_prop. apply negb_true_iff in Hc. by rewrite Hc.
Qed.

Lemma strip_spaceless s : spaceless s = true → strip s = s.
Proof.
  intros Hs. unfold strip. rewrite rstrip_spaceless by done.
  by apply lstrip_spaceless.
Qed.

End TextLemmas.

(** ** Lemmas on the tree *)

Section TreeLemmas.
Implicit Types (p q : path) (n : node) (es : gmap string node).

Lemma entries_at_nil n es : entries_at [] n = Some es ↔ n = Dir es.
Proof.
  unfold entries_at. simpl. destruct n; naive_solver.
Qed.

Lemma entries_at_cons x p n es :
  entries_at (x :: p) n = Some es ↔
  ∃ es0 c, n = Dir es0 ∧ es0 !! x = Some c ∧ entries_at p c = Some es.
Proof.
  unfold entries_at. simpl. split.
  - destruct n as [| |es0]; try done.
    destruct (es0 !! x) as [c|] eqn:E; simpl; [|done]. eauto.
  - intros (es0 & c & -> & E & H). by rewrite E.
Qed.

Lemma entries_at_alter_dir f p n es :
  entries_at p n = Some es → entries_at p (alter_dir f p n) = Some (f es).
Proof.
  revert n. induction p as [|x p IH]; intros n.
  - intros ->%entries_at_nil. done.
  - intros (es0 & c & -> & E & H)%entries_at_cons.
    apply entries_at_cons. exists (alter (alter_dir f p) x es0), (alter_dir f p c).
    split; [done|]. split; [|by apply IH].
    by rewrite lookup_alter_eq, E.
Qed.

Lemma alter_dir_same f p n es :
  entries_at p n = Some es → f es = es → alter_dir f p n = n.
Proof.
  revert n. induction p as [|x p IH]; intros n.
  - intros ->%entries_at_nil Hf. simpl. by rewrite Hf.
  - intros (es0 & c & -> & E & H)%entries_at_cons Hf. simpl. f_equal.
    apply map_eq. intros y. destruct (decide (x = y)) as [<-|].
    + rewrite lookup_alter_eq, E. simpl. f_equal. by apply IH.
    + by rewrite lookup_alter_ne.
Qed.

Lemma alter_dir_twice f g p n :
  alter_dir g p (alter_dir f p n) = alter_dir (g ∘ f) p n.
Proof.
  revert n. induction p as [|x p IH]; intros [| |es0]; simpl; try done.
  f_equal. rewrite alter_alter_eq. apply alter_ext. intros c _. apply IH.
Qed.



Lemma get_snoc_not_dir p n x :
  entries_at p n = None → get (p ++ [x]) n = None.
Proof.
  revert n. induction p as [|y p IH]; intros n.
  - unfold entries_at. simpl. by destruct n.
  - destruct n as [| |es0]; try done. simpl.
    unfold entries_at. simpl. destruct (es0 !! y) as [c|] eqn:E; simpl; [|done].
    apply IH.
Qed.

Lemma is_dir_entries_at p n es :
  entries_at p n = Some es → is_dir (get p n) = true.
Proof.
  unfold entries_at, is_dir. by destruct (get p n) as [[]|].
Qed.

Lemma is_dir_false_entries_at p n :
  is_dir (get p n) = false → entries_at p n = None.
Proof.
  unfold entries_at, is_dir. by destruct (get p n) as [[]|].
Qed.

Lemma entries_at_put_entries p es es' h :
  entries_at p (root h) = Some es →
  entries_at p (root (put_entries p es' h)) = Some es'.
Proof. apply (entries_at_alter_dir (λ _, es')). Qed.

Lemma put_entries_twice p es es' h :
  put_entries p es' (put_entries p es h) = put_entries p es' h.
Proof. unfold put_entries. simpl. by rewrite alter_dir_twice. Qed.

(** Writing back the entries a directory has changes nothing. *)
Lemma host_same h es d :
  entries_at d (root h) = Some es → put_entries d es h = h.
Proof.
  intros Hd. destruct h as [r ho]. unfold put_entries. simpl in *. f_equal.
  by apply (alter_dir_same _ _ _ es).
Qed.

End TreeLemmas.

(** ** Lemmas on listings *)

Section ListingLemmas.
Implicit Types (es : gmap string node) (l : list string) (n m : string).

Lemma StronglySorted_filter {A} (R : relation A) (P : A → Prop)
    `{∀ x, Decision (P x)} (l : list A) :
  StronglySorted R l → StronglySorted R (filter P l).
Proof.
  induction 1 as [|x l Hl IH Hx]; [constructor|].
  rewrite filter_cons. destruct (decide (P x)); [|done].
  constructor; [done|].
  apply Forall_forall. intros y [_ Hy]%list_elem_of_filter.
  rewrite Forall_forall in Hx. by apply Hx.
Qed.

Lemma StronglySorted_last_max {A} (R : relation A) `{!Reflexive R}
    (l : list A) (m : A) :
  StronglySorted R l → last l = Some m → ∀ x, x ∈ l → R x m.
Proof.
  intros Hs [l' ->]%last_Some x [Hx|Hx]%elem_of_app.
  - apply (StronglySorted_app_1_elem_of R l' [m]); [done|done|by constructor].
  - inversion Hx as [|??? Hx']; [done|inversion Hx'].
Qed.

Lemma StronglySorted_max_last l m :
  StronglySorted String.le l → m ∈ l → (∀ x, x ∈ l → String.le x m) →
  last l = Some m.
Proof.
  intros Hs Hm Hmax.
  destruct (last l) as [m'|] eqn:E.
  - f_equal. apply (anti_symm String.le).
    + apply Hmax. by eapply last_Some_elem_of.
    + by apply (StronglySorted_last_max String.le l).
  - apply last_None in E as ->. by apply elem_of_nil in Hm.
Qed.

Lemma ls_Permutation es :
  ls es ≡ₚ filter (λ n, hidden n = false) (elements (dom es)).
Proof. apply merge_sort_Permutation. Qed.

Lemma elem_of_ls es n : n ∈ ls es ↔ n ∈ dom es ∧ hidden n = false.
Proof.
  rewrite ls_Permutation, list_elem_of_filter, elem_of_elements. tauto.
Qed.

Lemma ls_sorted es : StronglySorted String.le (ls es).
Proof. apply StronglySorted_merge_sort; apply _. Qed.


Lemma elem_of_grep pattern l n :
  n ∈ grep pattern l ↔ contains pattern n = true ∧ n ∈ l.
Proof. unfold grep. by rewrite list_elem_of_filter. Qed.

Lemma grep_ls_sorted pattern es :
  StronglySorted String.le (grep pattern (ls es)).
Proof. apply StronglySorted_filter, ls_sorted. Qed.


Lemma head_tail_1 l : head (tail_1 l) = last l.
Proof. unfold tail_1. by destruct (last l). Qed.


End ListingLemmas.

(** ** The selection of [roll_site_forward] *)

Section Selection.
Implicit Types (es : gmap string node) (h : host) (d : path).

Lemma elem_of_candidates es n : n ∈ grep "2" (ls es) ↔ candidate es n.
Proof. rewrite elem_of_grep, elem_of_ls. unfold candidate. tauto. Qed.

Lemma no_candidate es :
  (∀ n, ¬ candidate es n) → grep "2" (ls es) = [].
Proof.
  intros Hno. destruct (grep "2" (ls es)) as [|n l] eqn:E; [done|].
  destruct (Hno n). apply elem_of_candidates. rewrite E. by left.
Qed.

Lemma last_candidate es m :
  candidate es m → (∀ n, candidate es n → String.le n m) →
  last (grep "2" (ls es)) = Some m.
Proof.
  intros Hm Hmax. apply StronglySorted_max_last.
  - apply grep_ls_sorted.
  - by apply elem_of_candidates.
  - intros n Hn. by apply Hmax, elem_of_candidates.
Qed.


End Selection.

(** ** Releases named after the time *)

Section Timestamps.

Lemma is_digit_not_space c : is_digit c = true → Ascii.is_space c = false.
Proof.
  destruct c as [[] [] [] [] [] [] [] []]; vm_compute; congruence.
Qed.

Lemma is_underscore_not_space c :
  is_underscore c = true → Ascii.is_space c = false.
Proof.
  destruct c as [[] [] [] [] [] [] [] []]; vm_compute; congruence.
Qed.

Lemma shaped_spaceless format s :
  Forall (λ f : ascii → bool, ∀ c, f c = true → Ascii.is_space c = false)
    format →
  shaped format s = true → spaceless s = true.
Proof.
  intros Hf. revert s. induction Hf as [|f format Hf _ IH]; intros [|c s];
    simpl; try done.
  intros [Hc Hs]%andb_prop. rewrite (Hf c Hc). simpl. by apply IH.
Qed.

Lemma is_timestamp_spaceless n : is_timestamp n = true → spaceless n = true.
Proof.
  apply shaped_spaceless. unfold timestamp_format. simpl.
  repeat constructor;
    first [exact is_digit_not_space | exact is_underscore_not_space].
Qed.

Lemma is_timestamp_nonempty n : is_timestamp n = true → nonempty n = true.
Proof. by destruct n. Qed.

Lemma is_timestamp_listed n : is_timestamp n = true → hidden n = false.
Proof.
  destruct n as [|c n]; [done|].
  unfold is_timestamp. simpl. intros [Hc _]%andb_prop.
  destruct c as [[] [] [] [] [] [] [] []];
    first [reflexivity | vm_compute in Hc; discriminate Hc].
Qed.

End Timestamps.

(** ** Replacing the link *)

Section Relink.
Implicit Types (es : gmap string node) (h : host) (d : path).

Lemma unlink_live_not_dir es :
  is_dir (es !! "live") = false → (unlink "live" es).2 = delete "live" es.
Proof.
  unfold unlink. destruct (es !! "live") as [[]|] eqn:E; simpl; try done.
  intros _. by rewrite delete_id.
Qed.

Lemma unlink_live_dir es :
  is_dir (es !! "live") = true → unlink "live" es = (false, es).
Proof.
  unfold unlink. by destruct (es !! "live") as [[]|].
Qed.

Lemma symlink_free target x es :
  dot_name x = false → es !! x = None →
  symlink target x es = (true, <[x := Symlink target]> es).
Proof.
  intros Hx E. unfold symlink, occupied. by rewrite Hx, E.
Qed.

Lemma ln_s_one t es :
  es !! "live" = None →
  ln_s [t] "live" es = (true, <["live" := Symlink t]> es).
Proof. intros E. unfold ln_s. rewrite E. by apply symlink_free. Qed.

Lemma ln_s_none es :
  es !! "live" = None →
  ln_s [] "live" es = (true, <["live" := Symlink "live"]> es).
Proof. intros E. unfold ln_s. by apply symlink_free. Qed.


End Relink.

(** ** [roll_site_forward], unfolded on the model of the shell *)

Section Unfolded.
Implicit Types (es : gmap string node) (h : host) (d : path).

(** The selection of [roll_site_forward]: the pipeline prints the last of
    the listed names that hold a [2], and [run] strips it. *)
Lemma run_ls_grep_tail d h es :
  entries_at d (root h) = Some es →
  run exec (ls_grep_tail d) task_env h =
    (Done (Result (strip (default "" (last (grep "2" (ls es))))) 0), h).
Proof.
  intros Hd. unfold run, exec, listing, task_env, cd_fails. cbn [cwd warn_only].
  rewrite Hd, head_tail_1. reflexivity.
Qed.

Lemma in_directory_entries wd code act h es :
  entries_at wd (root h) = Some es →
  in_directory wd code act h =
    (Result "" (if (act es).1 then 0 else code),
     put_entries wd (act es).2 h).
Proof.
  intros Hd. unfold in_directory. rewrite Hd. by destruct (act es).
Qed.

Lemma cd_fails_entries d h es :
  entries_at d (root h) = Some es → cd_fails (Some d) h = false.
Proof.
  intros Hd. unfold cd_fails. by rewrite (is_dir_entries_at _ _ _ Hd).
Qed.


Lemma roll_site_forward_unfold d h es :
  entries_at d (root h) = Some es →
  roll_site_forward exec d task_env h =
    let newest := strip (default "" (last (grep "2" (ls es)))) in
    let es1 := (unlink "live" es).2 in
    let linked := ln_s (words is_blank newest) "live" es1 in
    (if linked.1 then Done tt else Abort, put_entries d linked.2 h).
Proof.
  intros Hd. unfold roll_site_forward, bind.
  rewrite (run_ls_grep_tail _ _ _ Hd).
  unfold cd, settings, run, exec, puts, ret. cbn [cwd warn_only stdout].
  rewrite (cd_fails_entries _ _ _ Hd).
  rewrite (in_directory_entries _ _ _ _ _ Hd).
  set (es1 := (unlink "live" es).2).
  rewrite andb_false_r.
  pose proof (entries_at_put_entries _ _ es1 _ Hd) as Hd1.
  rewrite (cd_fails_entries _ _ _ Hd1).
  rewrite (in_directory_entries _ _ _ _ _ Hd1).
  rewrite put_entries_twice.
  cbv zeta. destruct (ln_s _ _ es1) as [[] es2]; reflexivity.
Qed.



(** A name without white space that is the greatest candidate becomes the
    target of [live], when no directory [live] is in the way. *)
Lemma roll_site_forward_links_greatest d h es m :
  entries_at d (root h) = Some es →
  candidate es m → (∀ n, candidate es n → String.le n m) →
  spaceless m = true →
  run exec (ls_grep_tail d) task_env h = (Done (Result m 0), h) ∧
  (is_dir (es !! "live") = false →
   roll_site_forward exec d task_env h =
     (Done tt, put_entries d (<["live" := Symlink m]> es) h)).
Proof.
  intros Hd Hm Hmax Hsp.
  assert (nonempty m = true) as Hne.
  { destruct Hm as (_ & _ & Hc). by destruct m. }
  split.
  - rewrite (run_ls_grep_tail _ _ _ Hd), (last_candidate _ _ Hm Hmax).
    simpl. by rewrite strip_spaceless.
  - intros Hlive. rewrite (roll_site_forward_unfold _ _ _ Hd). cbv zeta.
    rewrite (last_candidate _ _ Hm Hmax). simpl default.
    rewrite strip_spaceless by done.
    rewrite words_spaceless by (done || apply is_blank_is_space).
    rewrite unlink_live_not_dir by done.
    rewrite ln_s_one by apply lookup_delete_eq.
    by rewrite insert_delete_eq.
Qed.

End Unfolded.

(** ** What the commands leave alone *)








(** ** Lemmas on pruning *)




Lemma in_directory_unchanged wd code h :
  in_directory wd code (rm_rf []) h =
    (Result "" (if is_dir (get wd (root h)) then 0 else 1), h).
Proof.
  unfold in_directory.
  destruct (entries_at wd (root h)) as [es|] eqn:Hd.
  - rewrite (is_dir_entries_at _ _ _ Hd). simpl.
    by rewrite (host_same _ _ _ Hd).
  - unfold entries_at in Hd. unfold is_dir.
    by destruct (get wd (root h)) as [[]|].
Qed.







(** ** Properties of all the names of a given directory *)

Lemma dom_forall (P : string → Prop) (es : gmap string node) :
  Forall P (elements (dom es)) → ∀ n, n ∈ dom es → P n.
Proof.
  intros HP n Hn. rewrite Forall_forall in HP. by apply HP, elem_of_elements.
Qed.

Ltac close_name :=
  cbv beta; intros;
  first
    [ reflexivity
    | by vm_compute
    | exfalso;
      match goal with
      | H : _ = _ |- _ => vm_compute in H; discriminate H
      end ].

Ltac each_name :=
  match goal with
  | |- ∀ n, n ∈ dom ?es → @?P n => apply (dom_forall P es)
  end;
  match goal with
  | |- Forall _ ?l => let l' := eval vm_compute in l in change l with l'
  end;
  repeat (apply Forall_cons; split; [close_name|]);
  apply Forall_nil_2.

(** ** The claims *)

(** *** C1: how many entries [prune_directory] retains *)


(** C1, on the code.  The three releases, the pattern [2023] and
    [max_entries = 2].  Called inside [cd(directory)], [prune_directory]
    removes 20230101_000000 and 20230102_000000 and retains 20230103_000000
    alone: [tail -n +2] prints from the second line on, so one entry less
    than [max_entries] is kept.  Called as [deploy()] does, outside any [cd],
    it retains the three: [rm] gets the bare names and runs in the home of
    the deploy user. *)
Theorem prune_directory_three_releases :
  prune_directory exec site "2023" 2 (Env (Some site) false)
    (host_with three_releases) =
    (Done true, host_with {[ "20230103_000000" := release ]}) ∧
  prune_directory exec site "2023" 2 task_env (host_with three_releases) =
    (Done true, host_with three_releases).
Proof.
  split; vm_compute; reflexivity.
Qed.

(** *** C2: the release [roll_site_forward] selects *)

(** C2, as the code has it.  [roll_site_forward] chooses among the listed
    entries whose name has a [2] in it.  When these are the entries named
    after a time (each such name has a [2], as those of the years 2000 to
    2999 have, and nothing else listed has one), it selects the greatest of
    the names that follow the convention, and links [live] to it unless a
    directory [live] is in the way. *)
Theorem roll_site_forward_greatest_timestamp d h es m :
  entries_at d (root h) = Some es →
  (∀ n, candidate es n → is_timestamp n = true) →
  (∀ n, n ∈ dom es → is_timestamp n = true → contains "2" n = true) →
  m ∈ dom es → is_timestamp m = true →
  (∀ n, n ∈ dom es → is_timestamp n = true → String.le n m) →
  run exec (ls_grep_tail d) task_env h = (Done (Result m 0), h) ∧
  (is_dir (es !! "live") = false →
   roll_site_forward exec d task_env h =
     (Done tt, put_entries d (<["live" := Symlink m]> es) h)).
Proof.
  intros Hd Hcand Htwo Hm Hts Hmax.
  apply roll_site_forward_links_greatest; [done| | |].
  - split; [done|]. split; [by apply is_timestamp_listed|by apply Htwo].
  - intros n Hn. apply Hmax; [by destruct Hn|by apply Hcand].
  - by apply is_timestamp_spaceless.
Qed.

Lemma roll_site_forward_greatest_timestamp_witness :
  run exec (ls_grep_tail site) task_env (host_with three_releases_live) =
    (Done (Result "20230103_000000" 0), host_with three_releases_live) ∧
  roll_site_forward exec site task_env (host_with three_releases_live) =
    (Done tt, host_with three_releases_live).
Proof.
  destruct (roll_site_forward_greatest_timestamp site
              (host_with three_releases_live) three_releases_live
              "20230103_000000") as [Hsel Hlink].
  - vm_compute. reflexivity.
  - intros n (Hn & Hh & Hc). revert n Hn Hh Hc. each_name.
  - each_name.
  - vm_compute. reflexivity.
  - reflexivity.
  - each_name.
  - split; [exact Hsel|]. rewrite Hlink by reflexivity.
    vm_compute. reflexivity.
Defined.

(** C2, counterexample.  The release of the year 3000 follows the convention
    and is greater than the one of 2023, yet [live] is linked to the latter:
    the former has no [2] in its name.  And next to a directory [backup_2022],
    which does not follow the convention, [live] is linked to that
    directory. *)
Lemma roll_site_forward_not_greatest_timestamp :
  (is_timestamp "30000101_000000" = true ∧
   String.le "20230101_000000" "30000101_000000" ∧
   ∃ h', roll_site_forward exec site task_env (host_with release_of_year_3000)
           = (Done tt, h') ∧
         get (site ++ ["live"]) (root h') = Some (Symlink "20230101_000000")) ∧
  (is_timestamp "backup_2022" = false ∧
   ∃ h', roll_site_forward exec site task_env (host_with release_and_backup)
           = (Done tt, h') ∧
         get (site ++ ["live"]) (root h') = Some (Symlink "backup_2022")).
Proof.
  split.
  - split; [reflexivity|]. split; [by vm_compute|].
    eexists. split; vm_compute; reflexivity.
  - split; [reflexivity|]. eexists. split; vm_compute; reflexivity.
Qed.

(** *** C3: no release to select *)

(** C3, as the code has it.  When no listed entry of the deployment directory
    has a [2] in its name (so also when the directory is empty) the pipeline
    still exits with the status of [tail], which is 0: no error is raised for
    the missing release.  The run goes on with an empty name, [ln -s  live]
    has the single operand [live], and unless a directory named [live] is in
    the way the function completes and leaves [live] as a link to the name
    [live].  With a directory [live] it aborts at [ln], the tree unchanged. *)
Theorem roll_site_forward_no_release d h es :
  entries_at d (root h) = Some es →
  (∀ n, n ∈ dom es → hidden n = false → contains "2" n = false) →
  roll_site_forward exec d task_env h =
    if is_dir (es !! "live") then (Abort, h)
    else (Done tt, put_entries d (<["live" := Symlink "live"]> es) h).
Proof.
  intros Hd Hno. rewrite (roll_site_forward_unfold _ _ _ Hd). cbv zeta.
  rewrite no_candidate.
  2:{ intros n (Hn & Hh & Hc). by rewrite (Hno n Hn Hh) in Hc. }
  change (strip (default "" (last []))) with "". rewrite words_empty.
  destruct (is_dir (es !! "live")) eqn:Hlive.
  - rewrite unlink_live_dir by done. simpl.
    unfold ln_s, symlink, occupied.
    destruct (es !! "live") as [[]|] eqn:E; try done. simpl.
    by rewrite (host_same _ _ _ Hd).
  - rewrite unlink_live_not_dir by done.
    rewrite ln_s_none by apply lookup_delete_eq.
    by rewrite insert_delete_eq.
Qed.

Lemma roll_site_forward_no_release_witness :
  roll_site_forward exec site task_env (host_with ∅) =
    (Done tt, host_with {[ "live" := Symlink "live" ]}).
Proof.
  rewrite (roll_site_forward_no_release site (host_with ∅) ∅).
  - vm_compute. reflexivity.
  - vm_compute. reflexivity.
  - intros n Hn. by apply elem_of_dom, is_Some_alt in Hn.
Defined.

(** C3, counterexample.  In an empty deployment directory
    [roll_site_forward] does not fail: it returns, and the directory then
    holds a link [live] to [live]. *)
Lemma roll_site_forward_empty_directory :
  entries_at site (root (host_with ∅)) = Some ∅ ∧
  ∃ h', roll_site_forward exec site task_env (host_with ∅) = (Done tt, h') ∧
        entries_at site (root h') = Some {[ "live" := Symlink "live" ]}.
Proof.
  split; [reflexivity|]. eexists. split; vm_compute; reflexivity.
Qed.

(** *** C4: entries that do not match the pattern *)


(** C4, on the code.  The directory holds an entry named [2022 live] next to
    two releases and the link [live]; the pattern is [2] and
    [max_entries = 2].  [live] does not hold the pattern, yet
    [prune_directory], called inside [cd(directory)], removes it: xargs cuts
    the line [2022 live] into the two arguments [2022] and [live] of
    [rm -rf].  Called as [deploy()] does, outside any [cd], with an entry
    named [2022 projects], it removes the directory [projects] of the home of
    the deploy user, and with it every entry of the pruned directory. *)
Theorem prune_directory_removes_live :
  contains "2" "live" = false ∧
  name_with_blanks !! "live" = Some (Symlink "20230102_000000") ∧
  prune_directory exec site "2" 2 (Env (Some site) false)
    (host_with name_with_blanks) =
    (Done true,
     host_with {[ "2022 live" := release; "20230102_000000" := release ]}) ∧
  prune_directory exec site "2" 2 task_env (host_with name_of_an_ancestor) =
    (Done true, empty_home).
Proof.
  split; [reflexivity|]. split; [vm_compute; reflexivity|].
  split; vm_compute; reflexivity.
Qed.

(** *** C5: failures of [unlink] *)

(** C5, as the code has it.  Over any remote shell: [unlink live] runs under
    [warn_only], so its result [r2], a failure of any cause included, has no
    part in the outcome.  Once the selection has run, [roll_site_forward]
    aborts exactly when [ln -s] fails. *)
Theorem roll_site_forward_unlink_ignored {Host : Type}
    (remote : option path → command → Host → result * Host)
    d h r1 h1 r2 h2 r3 h3 :
  remote None (ls_grep_tail d) h = (r1, h1) →
  failed r1 = false →
  remote (Some d) unlink_live h1 = (r2, h2) →
  remote (Some d) (ln_s_live (strip (stdout r1))) h2 = (r3, h3) →
  roll_site_forward remote d task_env h =
    (if failed r3 then Abort else Done tt, h3).
Proof.
  intros H1 Hok H2 H3.
  unfold roll_site_forward, bind, cd, settings, run, puts, ret, task_env.
  cbn [cwd warn_only]. rewrite H1, Hok. cbn [andb stdout].
  rewrite H2, andb_false_r, H3. cbn [negb]. rewrite andb_true_r.
  by destruct (failed r3).
Qed.

Lemma roll_site_forward_unlink_ignored_witness :
  failed (exec (Some site) unlink_live (host_with three_releases)).1 = true ∧
  roll_site_forward exec site task_env (host_with three_releases) =
    (Done tt, host_with three_releases_live).
Proof.
  split; [reflexivity|].
  rewrite (roll_site_forward_unlink_ignored exec site (host_with three_releases)
             (Result "20230103_000000" 0) (host_with three_releases)
             (Result "" 1) (host_with three_releases)
             (Result "" 0) (host_with three_releases_live)).
  - reflexivity.
  - vm_compute. reflexivity.
  - reflexivity.
  - vm_compute. reflexivity.
  - vm_compute. reflexivity.
Defined.

(** C5, counterexample.  [live] exists and is a directory.  [unlink live]
    fails, and not because [live] is missing; the failure is not surfaced:
    [roll_site_forward] completes. *)
Lemma roll_site_forward_unlink_failure_not_surfaced :
  is_dir (get (site ++ ["live"]) (root (host_with live_is_a_directory))) = true ∧
  exec (Some site) unlink_live (host_with live_is_a_directory) =
    (Result "" 1, host_with live_is_a_directory) ∧
  ∃ h', roll_site_forward exec site task_env (host_with live_is_a_directory)
          = (Done tt, h').
Proof.
  split; [reflexivity|]. split; [vm_compute; reflexivity|].
  eexists. vm_compute. reflexivity.
Qed.

(** *** C6: fewer matching entries than [max_entries] *)



(** *** C7: three releases and no link *)

(** C7.  Wherever the deployment directory is and whatever the three
    releases hold: with exactly the directories 20230101_000000,
    20230102_000000 and 20230103_000000 in it and no [live],
    [roll_site_forward] completes and the directory has the same three
    entries and a link [live] to 20230103_000000. *)
Theorem roll_site_forward_three_releases d h c1 c2 c3 :
  let es : gmap string node :=
    {[ "20230101_000000" := Dir c1;
       "20230102_000000" := Dir c2;
       "20230103_000000" := Dir c3 ]} in
  entries_at d (root h) = Some es →
  roll_site_forward exec d task_env h =
    (Done tt, put_entries d (<["live" := Symlink "20230103_000000"]> es) h).
Proof.
  intros es Hd. rewrite (roll_site_forward_unfold _ _ _ Hd). cbv zeta.
  assert (last (grep "2" (ls es)) = Some "20230103_000000") as ->
    by (vm_compute; reflexivity).
  assert (strip (default "" (Some "20230103_000000")) = "20230103_000000") as ->
    by reflexivity.
  assert (words is_blank "20230103_000000" = ["20230103_000000"]) as ->
    by reflexivity.
  assert (es !! "live" = None) as Hlive by (vm_compute; reflexivity).
  rewrite unlink_live_not_dir by (by rewrite Hlive).
  rewrite delete_id by done. rewrite ln_s_one by done. reflexivity.
Qed.

Lemma roll_site_forward_three_releases_witness :
  roll_site_forward exec site task_env (host_with three_releases) =
    (Done tt, host_with three_releases_live).
Proof.
  rewrite (roll_site_forward_three_releases site (host_with three_releases)
             {[ "manage.py" := File ]} {[ "manage.py" := File ]}
             {[ "manage.py" := File ]}).
  - vm_compute. reflexivity.
  - vm_compute. reflexivity.
Defined.

(** *** C8: calling [roll_site_forward] twice *)




(** *** C9: the filter of [roll_site_forward] *)




(** *** C10: the entries other than [live] *)



(** ** Further properties of the rotation *)









(** X4.  A negative [max_entries] makes the operand of [tail] invalid
    ([+-3]): no line reaches [xargs], and [prune_directory] removes nothing,
    whatever the directory, the pattern and the [env]. *)
Theorem prune_directory_negative directory pattern max_entries e h :
  (max_entries < 0)%Z →
  prune_directory exec directory pattern max_entries e h =
    (Done (is_dir (get (default (home h) (cwd e)) (root h))), h).
Proof.
  intros Hneg.
  unfold prune_directory, settings, bind, puts, ret, run, exec.
  cbn [cwd warn_only].
  assert (tail_from max_entries (grep pattern (listing ls_r directory h)) = [])
    as ->.
  { unfold tail_from. by rewrite (proj2 (Z.ltb_lt _ _)). }
  change (xargs []) with (@nil string).
  rewrite in_directory_unchanged.
  destruct (cwd e) as [p|]; unfold cd_fails; simpl.
  - destruct (is_dir (get p (root h))); reflexivity.
  - destruct (is_dir (get (home h) (root h))); reflexivity.
Qed.

Lemma prune_directory_negative_witness :
  prune_directory exec site "2023" (-1) (Env (Some site) false)
    (host_with three_releases) =
    (Done true, host_with three_releases).
Proof.
  rewrite (prune_directory_negative site "2023" (-1) (Env (Some site) false)
             (host_with three_releases)).
  - reflexivity.
  - reflexivity.
Defined.





(** X6.  Over any remote shell and in any [env], [prune_directory] never
    aborts the run: its command line runs under [warn_only], and the function
    returns whether the command line exited with 0. *)
Theorem prune_directory_never_aborts {Host : Type}
    (remote : option path → command → Host → result * Host)
    directory pattern max_entries e h :
  prune_directory remote directory pattern max_entries e h =
    let answer :=
      remote (cwd e) (ls_grep_tail_xargs_rm directory pattern max_entries) h in
    (Done (succeeded answer.1), answer.2).
Proof.
  unfold prune_directory, settings, bind, puts, ret, run. cbn [cwd warn_only].
  destruct (remote _ _ h) as [r h']. by rewrite andb_false_r.
Qed.





(** *** Rotation, then pruning *)









(** *** More on [roll_site_forward] *)

(** X11.  Over any remote shell: called under a [warn_only] of the caller,
    [roll_site_forward] never aborts.  Neither a failing listing nor a
    failing [ln] stops it, and it returns as after a successful rotation. *)
Theorem roll_site_forward_under_warn_only {Host : Type}
    (remote : option path → command → Host → result * Host) d e h :
  warn_only e = true →
  (roll_site_forward remote d e h).1 = Done tt.
Proof.
  intros Hw.
  unfold roll_site_forward, bind, cd, settings, run, puts, ret.
  cbn [cwd warn_only]. rewrite Hw. cbn [negb].
  destruct (remote (cwd e) (ls_grep_tail d) h) as [r1 h1].
  rewrite andb_false_r.
  destruct (remote (Some d) unlink_live h1) as [r2 h2].
  rewrite andb_false_r. cbn [stdout].
  destruct (remote (Some d) (ln_s_live (strip (stdout r1))) h2) as [r3 h3].
  by rewrite andb_false_r.
Qed.

Lemma roll_site_forward_under_warn_only_witness :
  (roll_site_forward exec site (Env None true)
     (host_with greatest_name_with_blank)).1 = Done tt ∧
  (roll_site_forward exec site (Env None false)
     (host_with greatest_name_with_blank)).1 = Abort.
Proof.
  split.
  - apply (roll_site_forward_under_warn_only exec). reflexivity.
  - vm_compute. reflexivity.
Defined.



(** ** The paths of the deployment context *)

Section Paths.
Import Posixpath Init.

Lemma rfind_slash_bound p : (-1 ≤ rfind_slash p)%Z.
Proof.
  induction p as [|c p IH]; simpl; [lia|].
  destruct (0 <=? rfind_slash p)%Z eqn:E; [lia|]. destruct (is_slash c); lia.
Qed.

Lemma rfind_slash_slashless p : slashless p = true → rfind_slash p = (-1)%Z.
Proof.
  induction p as [|c p IH]; simpl; [done|].
  intros [Hc Hp]%andb_prop. rewrite IH by done. simpl.
  apply negb_true_iff in Hc. by rewrite Hc.
Qed.

Lemma rfind_slash_none p : rfind_slash p = (-1)%Z → slashless p = true.
Proof.
  induction p as [|c p IH]; simpl; [done|].
  pose proof (rfind_slash_bound p).
  destruct (0 <=? rfind_slash p)%Z eqn:E; [lia|].
  apply Z.leb_gt in E. destruct (is_slash c); [lia|].
  intros _. simpl. apply IH. lia.
Qed.

(** The part of a path after its last slash has no slash. *)
Lemma basename_slashless p : slashless (basename p) = true.
Proof.
  unfold basename. induction p as [|c p IH]; simpl; [done|].
  pose proof (rfind_slash_bound p).
  destruct (0 <=? rfind_slash p)%Z eqn:E.
  - apply Z.leb_le in E.
    replace (Z.to_nat (rfind_slash p + 1 + 1))
      with (S (Z.to_nat (rfind_slash p + 1))) by lia.
    exact IH.
  - apply Z.leb_gt in E.
    assert (slashless p = true) as Hp by (apply rfind_slash_none; lia).
    destruct (is_slash c) eqn:Hc; simpl; [done|]. by rewrite Hc.
Qed.

Lemma app_cons c (a b : string) : String c a +:+ b = String c (a +:+ b).
Proof. reflexivity. Qed.

Lemma app_empty_l (b : string) : "" +:+ b = b.
Proof. reflexivity. Qed.

Lemma app_assoc_string (a b c : string) : (a +:+ b) +:+ c = a +:+ (b +:+ c).
Proof.
  induction a as [|x a IH]; [done|]. by rewrite !app_cons, IH.
Qed.

Lemma rfind_slash_app a b :
  slashless b = true → rfind_slash (a +:+ b) = rfind_slash a.
Proof.
  intros Hb. induction a as [|c a IH].
  - rewrite app_empty_l. by apply rfind_slash_slashless.
  - rewrite app_cons. simpl. by rewrite IH.
Qed.

Lemma rfind_slash_snoc a :
  rfind_slash (a +:+ "/") = Z.of_nat (String.length a).
Proof.
  induction a as [|c a IH]; [done|].
  rewrite app_cons. simpl rfind_slash. rewrite IH.
  rewrite (proj2 (Z.leb_le _ _)) by lia. simpl String.length. lia.
Qed.

Lemma slice_from_app a b : slice_from (String.length a) (a +:+ b) = b.
Proof.
  induction a as [|c a IH]; [by destruct b|]. by rewrite app_cons.
Qed.

Lemma slice_to_app a b : slice_to (String.length a) (a +:+ b) = a.
Proof.
  induction a as [|c a IH]; [by destruct b|].
  rewrite app_cons. simpl. by rewrite IH.
Qed.

Lemma length_snoc a : String.length (a +:+ "/") = S (String.length a).
Proof.
  induction a as [|c a IH]; [done|]. rewrite app_cons. simpl. by rewrite IH.
Qed.

Lemma endswith_slash_cons c a :
  nonempty a = true → endswith_slash (String c a) = endswith_slash a.
Proof. by destruct a. Qed.

Lemma endswith_slash_app a b :
  nonempty b = true → endswith_slash (a +:+ b) = endswith_slash b.
Proof.
  intros Hb. induction a as [|c a IH]; [done|].
  rewrite app_cons, endswith_slash_cons; [done|].
  destruct a; [by rewrite app_empty_l|done].
Qed.

Lemma slashless_endswith b : slashless b = true → endswith_slash b = false.
Proof.
  induction b as [|c b IH]; [done|]. simpl.
  intros [Hc Hb]%andb_prop. destruct b; [by apply negb_true_iff|by apply IH].
Qed.

Lemma slashless_startswith b : slashless b = true → startswith_slash b = false.
Proof.
  destruct b as [|c b]; [done|]. simpl.
  intros [Hc _]%andb_prop. by apply negb_true_iff.
Qed.

Lemma endswith_slash_rfind a :
  endswith_slash a = true →
  rfind_slash a = (Z.of_nat (String.length a) - 1)%Z.
Proof.
  induction a as [|c a IH]; [done|].
  destruct a as [|c' a'].
  - simpl. intros ->. done.
  - intros Ha. rewrite endswith_slash_cons in Ha by done.
    specialize (IH Ha). simpl rfind_slash in *. rewrite IH.
    simpl String.length.
    rewrite (proj2 (Z.leb_le 0 _)) by lia. lia.
Qed.

Lemma all_slashes_endswith a :
  all_slashes a = true → nonempty a = true → endswith_slash a = true.
Proof.
  induction a as [|c a IH]; [done|]. simpl.
  intros [Hc Ha]%andb_prop _. destruct a; [done|by apply IH].
Qed.

Lemma all_slashes_app a b :
  all_slashes (a +:+ b) = all_slashes a && all_slashes b.
Proof.
  induction a as [|c a IH]; [done|].
  rewrite app_cons. simpl. by rewrite IH, andb_assoc.
Qed.

Lemma rstrip_slashes_keeps a :
  endswith_slash a = false → rstrip_slashes a = a.
Proof.
  induction a as [|c a IH]; [done|].
  destruct a as [|c' a'].
  - simpl. by intros ->.
  - intros Ha. rewrite endswith_slash_cons in Ha by done.
    specialize (IH Ha). simpl rstrip_slashes in *. by rewrite IH.
Qed.

Lemma rstrip_slashes_snoc a : rstrip_slashes (a +:+ "/") = rstrip_slashes a.
Proof.
  induction a as [|c a IH]; [done|].
  rewrite app_cons. simpl. by rewrite IH.
Qed.

(** [basename(join(a, b)) = b] for a component [b] without slash. *)
Lemma basename_join2 a b : slashless b = true → basename (join2 a b) = b.
Proof.
  intros Hb. unfold join2. rewrite (slashless_startswith _ Hb).
  destruct (nonempty a) eqn:Hne; simpl.
  - destruct (endswith_slash a) eqn:He.
    + unfold basename. rewrite rfind_slash_app, (endswith_slash_rfind _ He)
        by done.
      replace (Z.to_nat (Z.of_nat (String.length a) - 1 + 1))
        with (String.length a) by lia.
      apply slice_from_app.
    + unfold basename. rewrite <- app_assoc_string.
      rewrite rfind_slash_app, rfind_slash_snoc by done.
      replace (Z.to_nat (Z.of_nat (String.length a) + 1))
        with (String.length (a +:+ "/")) by (rewrite length_snoc; lia).
      apply slice_from_app.
  - destruct a; [|done]. rewrite app_empty_l. unfold basename.
    by rewrite rfind_slash_slashless.
Qed.

(** [dirname(join(a, b)) = a] for a component [b] without slash and a
    directory [a] that does not end with a slash. *)
Lemma dirname_join2 a b :
  endswith_slash a = false → slashless b = true → dirname (join2 a b) = a.
Proof.
  intros Ha Hb. unfold join2. rewrite (slashless_startswith _ Hb), Ha.
  destruct (nonempty a) eqn:Hne; simpl.
  - unfold dirname. rewrite <- app_assoc_string.
    rewrite rfind_slash_app, rfind_slash_snoc by done.
    replace (Z.to_nat (Z.of_nat (String.length a) + 1))
      with (String.length (a +:+ "/")) by (rewrite length_snoc; lia).
    rewrite slice_to_app.
    assert (all_slashes (a +:+ "/") = false) as ->.
    { rewrite all_slashes_app. apply andb_false_iff. left.
      destruct (all_slashes a) eqn:E; [|done].
      by rewrite (all_slashes_endswith _ E Hne) in Ha. }
    assert (nonempty (a +:+ "/") = true) as -> by (by destruct a).
    simpl. rewrite rstrip_slashes_snoc. by apply rstrip_slashes_keeps.
  - destruct a; [|done]. rewrite app_empty_l. unfold dirname.
    by rewrite rfind_slash_slashless.
Qed.

Lemma join2_relative a b :
  nonempty a = true → endswith_slash a = false → startswith_slash b = false →
  join2 a b = a +:+ "/" +:+ b.
Proof. intros Ha He Hb. unfold join2. by rewrite Hb, Ha, He. Qed.

Lemma is_digit_not_slash c : is_digit c = true → is_slash c = false.
Proof.
  destruct c as [[] [] [] [] [] [] [] []]; vm_compute; congruence.
Qed.

Lemma is_underscore_not_slash c : is_underscore c = true → is_slash c = false.
Proof.
  destruct c as [[] [] [] [] [] [] [] []]; vm_compute; congruence.
Qed.

Lemma shaped_slashless format s :
  Forall (λ f : ascii → bool, ∀ c, f c = true → is_slash c = false) format →
  shaped format s = true → slashless s = true.
Proof.
  intros Hf. revert s. induction Hf as [|f format Hf _ IH]; intros [|c s];
    simpl; try done.
  intros [Hc Hs]%andb_prop. rewrite (Hf c Hc). simpl. by apply IH.
Qed.

Lemma is_timestamp_slashless n : is_timestamp n = true → slashless n = true.
Proof.
  apply shaped_slashless. unfold timestamp_format. simpl.
  repeat constructor;
    first [exact is_digit_not_slash | exact is_underscore_not_slash].
Qed.

(** X13.  [__build_env_dictionary] puts the four paths it derives directly
    inside [project_root]: for a [project_root] that does not end with a
    slash, and a project name and a virtualenv name without slash (as the
    module sets them), each derived path has [project_root] as its directory
    and the name as its last component. *)
Theorem build_env_dictionary_inside_project_root e :
  endswith_slash (project_root e) = false →
  slashless (project_name e) = true →
  slashless (venv_dir e) = true →
  let e' := __build_env_dictionary e in
  project_root e' = project_root e ∧
  (dirname (project_dir e') = project_root e ∧
   basename (project_dir e') = project_name e) ∧
  (dirname (virtualenv_dir e') = project_root e ∧
   basename (virtualenv_dir e') = venv_dir e) ∧
  (dirname (fab_dir e') = project_root e ∧
   basename (fab_dir e') = basename (real_fabfile e)) ∧
  (dirname (requirements_path e') = project_root e ∧
   basename (requirements_path e') = "requirements.txt").
Proof.
  intros Hroot Hname Hvenv e'. unfold e', __build_env_dictionary, join.
  cbn [project_root project_dir virtualenv_dir fab_dir requirements_path foldl].
  pose proof (basename_slashless (real_fabfile e)) as Hfab.
  repeat split;
    first [by apply dirname_join2 | by apply basename_join2].
Qed.

Lemma build_env_dictionary_inside_project_root_witness :
  let e :=
    __build_env_dictionary
      (set_project_root "/srv/healthcms"
         (module_env "/srv/healthcms/fabfile" "deploy")) in
  project_dir e = "/srv/healthcms/healthcms" ∧
  dirname (virtualenv_dir e) = "/srv/healthcms" ∧
  fab_dir e = "/srv/healthcms/fabfile".
Proof.
  destruct (build_env_dictionary_inside_project_root
              (set_project_root "/srv/healthcms"
                 (module_env "/srv/healthcms/fabfile" "deploy")))
    as (_ & _ & [Hvenv _] & _); [reflexivity..|].
  split; [reflexivity|]. split; [exact Hvenv|reflexivity].
Defined.

(** X14.  The directory [deploy()] rotates and prunes is the directory that
    holds the release it builds.  With the context of the module, a fabfile
    whose project name is not empty, a timestamp of the format of [deploy()]
    and a release path that [realpath] leaves as it is: the release is
    [/home/deploy/projects/<project_name>/<timestamp>], the directory passed
    to [roll_site_forward] and [prune_directory] is
    [/home/deploy/projects/<project_name>], and the requirements file and the
    virtualenv are looked for inside the release. *)
Theorem deploy_env_paths realpath fabfile login timestamp :
  let name := basename (dirname fabfile) in
  let release := "/home/deploy/projects/" +:+ name +:+ "/" +:+ timestamp in
  nonempty name = true →
  is_timestamp timestamp = true →
  realpath release = release →
  let e := deploy_env realpath timestamp (module_env fabfile login) in
  project_root e = release ∧
  deployment_dir e = "/home/deploy/projects/" +:+ name ∧
  basename (project_root e) = timestamp ∧
  requirements_path e = release +:+ "/requirements.txt" ∧
  virtualenv_dir e = release +:+ "/env".
Proof.
  intros name release Hname Hts Hreal e.
  pose proof (basename_slashless (dirname fabfile)) as Hslash. fold name in Hslash.
  pose proof (is_timestamp_slashless _ Hts) as Htsl.
  pose proof (is_timestamp_nonempty _ Hts) as Htsn.
  set (parent := "/home/deploy/projects/" +:+ name).
  assert (endswith_slash parent = false) as Hparent.
  { unfold parent. rewrite endswith_slash_app by done.
    by apply slashless_endswith. }
  assert (join "/home" ["deploy"; "projects"; name; timestamp] =
          join2 parent timestamp) as Hjoin.
  { unfold join. cbn [foldl]. f_equal.
    change (join2 (join2 "/home" "deploy") "projects")
      with "/home/deploy/projects".
    rewrite join2_relative by (done || by apply slashless_startswith).
    reflexivity. }
  assert (join2 parent timestamp = release) as Hrel.
  { rewrite join2_relative; [|done|done|by apply slashless_startswith].
    unfold release, parent. by rewrite app_assoc_string. }
  assert (project_root e = release) as Hroot.
  { unfold e, deploy_env, __build_env_dictionary, set_project_root, set_user,
      module_env.
    cbn [project_root user production_projects_directory project_name].
    fold name. by rewrite Hjoin, Hrel. }
  assert (endswith_slash release = false) as Hend.
  { rewrite <- Hrel.
    rewrite join2_relative; [|done|done|by apply slashless_startswith].
    rewrite endswith_slash_app by reflexivity.
    change ("/" +:+ timestamp) with (String "/" timestamp).
    rewrite endswith_slash_cons by done. by apply slashless_endswith. }
  assert (nonempty release = true) as Hne by reflexivity.
  split; [done|]. split; [|split; [|split]].
  - unfold deployment_dir. rewrite Hroot, <- Hrel. by apply dirname_join2.
  - rewrite Hroot, <- Hrel. by apply basename_join2.
  - transitivity (join (project_root e) ["requirements.txt"]); [done|].
    rewrite Hroot. unfold join. cbn [foldl].
    by rewrite join2_relative.
  - transitivity (join (project_root e) ["env"]); [done|].
    rewrite Hroot. unfold join. cbn [foldl].
    by rewrite join2_relative.
Qed.

Lemma deploy_env_paths_witness :
  let e :=
    deploy_env (λ p, p) "20230103_000000"
      (module_env "/srv/healthcms/fabfile" "root") in
  project_root e = "/home/deploy/projects/healthcms/20230103_000000" ∧
  deployment_dir e = "/home/deploy/projects/healthcms" ∧
  basename (project_root e) = "20230103_000000" ∧
  requirements_path e =
    "/home/deploy/projects/healthcms/20230103_000000/requirements.txt" ∧
  virtualenv_dir e = "/home/deploy/projects/healthcms/20230103_000000/env".
Proof.
  apply (deploy_env_paths (λ p, p) "/srv/healthcms/fabfile" "root"
           "20230103_000000"); reflexivity.
Defined.

End Paths.

(** ** The steps that prepare a release *)

Section StepLemmas.
Import Posixpath Steps Lib.
Context {Host : Type}.
Variable remote : request → Host → result * Host.
Variable test_e : string → string.
Variable check_on_path : string → fab (Host := Host) unit.
Variable create_directories :
  string → string → option string → fab (Host := Host) unit.
Variable activate_venv : string.

Lemma failed_stripped r :
  Fabric.failed (Result (strip (stdout r)) (return_code r)) = Fabric.failed r.
Proof. reflexivity. Qed.

Lemma run_failed line e h :
  Fabric.failed (remote (sent e line) h).1 = true →
  run remote line e h =
    (if warn_only e
     then Fabric.Done (Result (strip (stdout (remote (sent e line) h).1))
                              (return_code (remote (sent e line) h).1))
     else Fabric.Abort,
     (remote (sent e line) h).2).
Proof.
  intros Hf. unfold run, call, sent in *.
  destruct (remote _ h) as [r h']. cbn [fst snd] in *. rewrite Hf.
  by destruct (warn_only e).
Qed.

Lemma run_succeeded line e h :
  Fabric.failed (remote (sent e line) h).1 = false →
  run remote line e h =
    (Fabric.Done (Result (strip (stdout (remote (sent e line) h).1))
                         (return_code (remote (sent e line) h).1)),
     (remote (sent e line) h).2).
Proof.
  intros Hf. unfold run, call, sent in *.
  destruct (remote _ h) as [r h']. cbn [fst snd] in *. by rewrite Hf.
Qed.

Lemma exists_answer path e h :
  exists_ remote test_e path e h =
    (Fabric.Done (negb (Fabric.failed (remote (sent e (test_e path)) h).1)),
     (remote (sent e (test_e path)) h).2).
Proof.
  unfold exists_, settings, bind, ret, run, call, sent. cbn [cwd warn_only command_prefixes].
  destruct (remote _ h) as [r h']. cbn [fst snd].
  rewrite andb_false_r. reflexivity.
Qed.

(** X15.  [git_pull] on a destination whose [test -d] fails aborts the run,
    under [warn_only] as well, and the host is left as the test left it:
    [git pull] is not run. *)
Theorem git_pull_missing_destination destination e h h1 :
  check_on_path "git" e h = (Fabric.Done tt, h1) →
  Fabric.failed (remote (sent e ("test -d " +:+ destination)) h1).1 = true →
  git_pull remote check_on_path destination e h =
    (Fabric.Abort, (remote (sent e ("test -d " +:+ destination)) h1).2).
Proof.
  intros Hc Hf. unfold git_pull, bind at 1. rewrite Hc.
  unfold bind at 1, puts at 1, ret at 1.
  unfold bind at 1. rewrite (run_failed _ _ _ Hf).
  destruct (warn_only e); [|reflexivity].
  unfold Fabric.succeeded. rewrite failed_stripped, Hf. reflexivity.
Qed.

(** X16.  [django_load_fixture] does not stop at a fixture file that is not
    there: whatever the test of the file answers, [manage.py loaddata] is run
    on it under the virtualenv prefix, and the step ends as that command
    does. *)
Theorem django_load_fixture_loads_anyway project_dir path e h :
  let full_path := join project_dir [path] in
  let tested := remote (sent e (test_e full_path)) h in
  let loaded :=
    remote (Request false (cwd e) (command_prefixes e ++ [activate_venv])
              (join project_dir ["manage.py"] +:+ " loaddata " +:+ full_path))
           tested.2 in
  django_load_fixture remote test_e activate_venv project_dir path e h =
    (if Fabric.failed loaded.1 && negb (warn_only e)
     then Fabric.Abort else Fabric.Done tt,
     loaded.2).
Proof.
  intros full_path tested loaded.
  unfold django_load_fixture. fold full_path.
  unfold bind at 1, puts at 1, ret at 1.
  unfold bind at 1. rewrite exists_answer. fold tested.
  assert (∀ b : bool,
    (if negb b then puts (Host := Host) "Fixture file not found" else ret tt)
      e tested.2 = (Fabric.Done tt, tested.2)) as Hputs by (by intros []).
  unfold bind at 1. rewrite Hputs.
  unfold bind at 1, prefix, run, call.
  cbn [cwd warn_only command_prefixes]. fold loaded.
  destruct loaded as [r h']. cbn [fst snd].
  by destruct (Fabric.failed r && negb (warn_only e)).
Qed.

(** X17.  A fixture given by an absolute path is loaded from that path:
    [project_dir] only locates [manage.py]. *)
Theorem django_load_fixture_absolute project_dir path e h :
  startswith_slash path = true →
  let tested := remote (sent e (test_e path)) h in
  (django_load_fixture remote test_e activate_venv project_dir path e h).2 =
    (remote (Request false (cwd e) (command_prefixes e ++ [activate_venv])
               (join project_dir ["manage.py"] +:+ " loaddata " +:+ path))
            tested.2).2.
Proof.
  intros Habs tested.
  assert (join project_dir [path] = path) as Hjoin.
  { unfold join. cbn [foldl]. unfold join2. by rewrite Habs. }
  unfold django_load_fixture. rewrite Hjoin.
  unfold bind at 1, puts at 1, ret at 1.
  unfold bind at 1. rewrite exists_answer. fold tested.
  assert (∀ b : bool,
    (if negb b then puts (Host := Host) "Fixture file not found" else ret tt)
      e tested.2 = (Fabric.Done tt, tested.2)) as Hputs by (by intros []).
  unfold bind at 1. rewrite Hputs.
  unfold bind at 1, prefix, run, call.
  cbn [cwd warn_only command_prefixes].
  destruct (remote _ tested.2) as [r h']. cbn [fst snd].
  by destruct (Fabric.failed r && negb (warn_only e)).
Qed.

(** X18.  The value of [create_virtualenv] tells what it did: when it
    returns, the value is [1] if the test of [bin/activate] failed, and so
    the virtualenv was made, and [None] if the file was there. *)
Theorem create_virtualenv_value venv_path user permissions e h v h' :
  create_virtualenv remote test_e check_on_path create_directories
    venv_path user permissions e h = (Fabric.Done v, h') →
  ∃ h1, check_on_path "virtualenv" e h = (Fabric.Done tt, h1) ∧
    v = if Fabric.failed
             (remote (sent e (test_e (join venv_path ["bin/activate"]))) h1).1
        then Some 1%Z else None.
Proof.
  unfold create_virtualenv. unfold bind at 1.
  destruct (check_on_path "virtualenv" e h) as [[[]|] h1]; [|done].
  intros Hrun. exists h1. split; [done|]. revert Hrun.
  unfold bind at 1. rewrite exists_answer.
  destruct (Fabric.failed _); cbn [negb].
  - unfold bind at 1.
    destruct (create_directories _ _ _ _ _) as [[[]|] h2]; [|done].
    unfold bind at 1, puts at 1, ret at 1.
    unfold bind at 1.
    destruct (run _ _ _ _) as [[r|] h3]; [|done].
    unfold bind, puts, ret. congruence.
  - unfold bind, puts, ret. congruence.
Qed.

(** X19.  Under [warn_only], [create_virtualenv] returns [1] although the
    [virtualenv] command failed: its exit status is not looked at. *)
Theorem create_virtualenv_unchecked venv_path user permissions e h h1 h2 :
  warn_only e = true →
  check_on_path "virtualenv" e h = (Fabric.Done tt, h1) →
  let tested :=
    remote (sent e (test_e (join venv_path ["bin/activate"]))) h1 in
  Fabric.failed tested.1 = true →
  create_directories venv_path user (Some permissions) e tested.2
    = (Fabric.Done tt, h2) →
  create_virtualenv remote test_e check_on_path create_directories
    venv_path user permissions e h =
    (Fabric.Done (Some 1%Z),
     (remote (sent e ("virtualenv --no-site-packages " +:+ venv_path)) h2).2).
Proof.
  intros Hw Hc tested Hf Hm.
  unfold create_virtualenv. unfold bind at 1. rewrite Hc.
  unfold bind at 1. rewrite exists_answer. fold tested. rewrite Hf.
  cbn [negb]. unfold bind at 1. rewrite Hm.
  unfold bind at 1, puts at 1, ret at 1.
  unfold bind at 1, run, call, sent. rewrite Hw.
  destruct (remote _ h2) as [r h3]. cbn [fst snd negb].
  rewrite andb_false_r. reflexivity.
Qed.

(** X20.  Without [plessc.py] in [project_dir], [compile_less_css] returns
    without a failure, also where failures abort, and runs nothing but the
    test of the file. *)
Theorem compile_less_css_skips project_dir e h :
  let tested := remote (sent e (test_e (join project_dir ["plessc.py"]))) h in
  Fabric.failed tested.1 = true →
  compile_less_css remote test_e activate_venv project_dir e h =
    (Fabric.Done tt, tested.2).
Proof.
  intros tested Hf. unfold compile_less_css.
  unfold bind at 1, puts at 1, ret at 1.
  unfold bind at 1. rewrite exists_answer. fold tested. rewrite Hf.
  reflexivity.
Qed.

(** X21.  Where failures abort, [restart_services] stops at a failed
    [supervisorctl restart all]: nginx and memcached are not restarted. *)
Theorem restart_services_stops e h h1 :
  warn_only e = false →
  check_on_path "supervisorctl" e h = (Fabric.Done tt, h1) →
  let restarted :=
    remote (Request true (cwd e) (command_prefixes e)
              "supervisorctl restart all") h1 in
  Fabric.failed restarted.1 = true →
  restart_services remote check_on_path e h = (Fabric.Abort, restarted.2).
Proof.
  intros Hw Hc restarted Hf. unfold restart_services.
  unfold bind at 1. rewrite Hc.
  unfold bind at 1, sudo, call. fold restarted.
  destruct restarted as [r h2]. cbn [fst snd] in *. by rewrite Hf, Hw.
Qed.

(** X22.  [git_clone] does not stop at a failed test of the destination,
    also where failures abort: it has the directory made and goes on to
    [git clone], and ends as that command does. *)
Theorem git_clone_makes_destination repo_path destination user e h h1 h2 :
  check_on_path "git" e h = (Fabric.Done tt, h1) →
  let tested :=
    remote (sent e ("test -d " +:+ destination)) h1 in
  Fabric.failed tested.1 = true →
  create_directories destination user None
    (Env (cwd e) true (command_prefixes e)) tested.2 = (Fabric.Done tt, h2) →
  let cloned :=
    remote (sent e ("git clone " +:+ repo_path +:+ " " +:+ destination)) h2 in
  git_clone remote check_on_path create_directories
    repo_path destination user e h =
    (if Fabric.failed cloned.1 && negb (warn_only e)
     then Fabric.Abort else Fabric.Done tt,
     cloned.2).
Proof.
  intros Hc tested Hf Hm cloned. unfold git_clone.
  unfold bind at 1. rewrite Hc.
  unfold bind at 1, puts at 1, ret at 1.
  unfold bind at 1, settings at 1.
  unfold bind at 1, run at 1, call at 1.
  cbn [cwd warn_only command_prefixes].
  change (Request false (cwd e) (command_prefixes e) ("test -d " +:+ destination))
    with (sent e ("test -d " +:+ destination)).
  fold tested. destruct tested as [r ht] eqn:Ht. cbn [fst snd] in *.
  rewrite andb_false_r. rewrite failed_stripped, Hf.
  unfold bind at 1, puts at 1, ret at 1.
  unfold bind at 1. rewrite Hm.
  unfold puts at 1, ret at 1.
  unfold bind, run, call, puts, ret.
  change (Request false (cwd e) (command_prefixes e)
            ("git clone " +:+ repo_path +:+ " " +:+ destination))
    with (sent e ("git clone " +:+ repo_path +:+ " " +:+ destination)).
  fold cloned. destruct cloned as [rc hc]. cbn [fst snd].
  by destruct (Fabric.failed rc && negb (warn_only e)).
Qed.

End StepLemmas.

Section StepCases.
Import Posixpath Steps Lib Recorded.

Lemma git_pull_missing_destination_witness :
  git_pull (recording nothing_there) on_path "/srv/app" task_env [] =
    (Fabric.Abort, [Request false "" [] "test -d /srv/app"]) ∧
  git_pull (recording nothing_there) on_path "/srv/app" (Env "" true []) [] =
    (Fabric.Abort, [Request false "" [] "test -d /srv/app"]).
Proof.
  split.
  - exact (git_pull_missing_destination (recording nothing_there) on_path
             "/srv/app" task_env [] [] eq_refl eq_refl).
  - exact (git_pull_missing_destination (recording nothing_there) on_path
             "/srv/app" (Env "" true []) [] [] eq_refl eq_refl).
Defined.

Lemma django_load_fixture_absolute_witness :
  (django_load_fixture (recording nothing_there) test_e activate
     "/srv/app" "/srv/fixtures/initial_data.json" task_env []).2 =
    [Request false "" [] "test -e /srv/fixtures/initial_data.json";
     Request false "" ["source env/bin/activate"]
       "/srv/app/manage.py loaddata /srv/fixtures/initial_data.json"].
Proof.
  exact (django_load_fixture_absolute (recording nothing_there) test_e activate
           "/srv/app" "/srv/fixtures/initial_data.json" task_env [] eq_refl).
Defined.

Lemma create_virtualenv_value_witness :
  ∃ h1, on_path "virtualenv" task_env [] = (Fabric.Done tt, h1) ∧
    Some 1%Z =
      if Fabric.failed
           (recording nothing_there
              (sent task_env (test_e (join "/srv/env" ["bin/activate"]))) h1).1
      then Some 1%Z else None.
Proof.
  exact (create_virtualenv_value (recording nothing_there) test_e on_path made
           "/srv/env" "deploy" "0750" task_env [] (Some 1%Z)
           [Request false "" [] "test -e /srv/env/bin/activate";
            Request false "" [] "virtualenv --no-site-packages /srv/env"]
           eq_refl).
Defined.

Lemma create_virtualenv_unchecked_witness :
  create_virtualenv (recording nothing_works) test_e on_path made
    "/srv/env" "deploy" "0750" (Env "" true []) [] =
    (Fabric.Done (Some 1%Z),
     [Request false "" [] "test -e /srv/env/bin/activate";
      Request false "" [] "virtualenv --no-site-packages /srv/env"]).
Proof.
  exact (create_virtualenv_unchecked (recording nothing_works) test_e on_path
           made "/srv/env" "deploy" "0750" (Env "" true []) [] []
           [Request false "" [] "test -e /srv/env/bin/activate"]
           eq_refl eq_refl eq_refl eq_refl).
Defined.

Lemma compile_less_css_skips_witness :
  compile_less_css (recording nothing_there) test_e activate "/srv/app"
    task_env [] =
    (Fabric.Done tt, [Request false "" [] "test -e /srv/app/plessc.py"]).
Proof.
  exact (compile_less_css_skips (recording nothing_there) test_e activate
           "/srv/app" task_env [] eq_refl).
Defined.

Lemma restart_services_stops_witness :
  restart_services (recording (all_but "supervisorctl restart all")) on_path
    task_env [] =
    (Fabric.Abort, [Request true "" [] "supervisorctl restart all"]).
Proof.
  exact (restart_services_stops
           (recording (all_but "supervisorctl restart all")) on_path
           task_env [] [] eq_refl eq_refl eq_refl).
Defined.

Lemma git_clone_makes_destination_witness :
  git_clone (recording nothing_there) on_path made
    "git@example.org:app.git" "/srv/app" "deploy" task_env [] =
    (Fabric.Done tt,
     [Request false "" [] "test -d /srv/app";
      Request false "" [] "git clone git@example.org:app.git /srv/app"]).
Proof.
  exact (git_clone_makes_destination (recording nothing_there) on_path made
           "git@example.org:app.git" "/srv/app" "deploy" task_env [] []
           [Request false "" [] "test -d /srv/app"]
           eq_refl eq_refl eq_refl).
Defined.

End StepCases.
